(** * AdFlow ad selection worker

    A shallow embedding of [project1/student-starter/worker/lambda_handler.py]
    together with the fixture of [worker/tests/test_handler.py].

    Python values are modelled as follows.
    - [float] is IEEE binary64, i.e. Rocq's primitive [float]; literals are
      rounded to the nearest binary64 exactly as Python rounds them.
    - The dictionaries that travel through the worker (bids, opportunities,
      SQS records, results) have a fixed key set, documented in the
      docstrings, and become records.
    - [dict] literals used as lookup tables become [gmap]s.
    - A call either returns a value or raises; calls that can reach the AWS
      clients thread the module globals explicitly. *)

From Stdlib Require Import ZArith List Ascii String.
From Stdlib Require Import Floats.PrimFloat.
From stdpp Require Import base option list gmap strings.

Set Warnings "-inexact-float".
Local Open Scope string_scope.
Local Open Scope Z_scope.

(** ** Python outcomes *)

(** The only exception the module constructs itself. *)
Inductive exn : Type :=
  | NotImplementedError (msg : string).

(** Outcome of a call: a returned value or a raised exception. *)
Inductive py (A : Type) : Type :=
  | Return (a : A)
  | Raise (e : exn).
Arguments Return {A} a.
Arguments Raise {A} e.

(** [m] completes normally with some value. *)
Definition returns {A : Type} (m : py A) : Prop := exists a, m = Return a.

(** ** Data model *)

(** A bid: [{"advertiser_id": ..., "bid_amount": ..., "category": ...}]. *)
Record Bid : Type := mkBid {
  advertiser_id : string;
  bid_amount : float;
  category : string
}.

(** An opportunity message, with the keys of the fixture. *)
Record Opportunity : Type := mkOpportunity {
  opportunity_id : string;
  timestamp : string;
  user_id : string;
  content_category : string;
  device_type : string;
  region : string;
  bids : list Bid
}.

Definition with_bids (o : Opportunity) (bs : list Bid) : Opportunity :=
  mkOpportunity (opportunity_id o) (timestamp o) (user_id o)
    (content_category o) (device_type o) (region o) bs.

Definition with_timestamp (o : Opportunity) (ts : string) : Opportunity :=
  mkOpportunity (opportunity_id o) ts (user_id o)
    (content_category o) (device_type o) (region o) (bids o).

Definition with_device_type (o : Opportunity) (d : string) : Opportunity :=
  mkOpportunity (opportunity_id o) (timestamp o) (user_id o)
    (content_category o) d (region o) (bids o).

(** The dictionary [select_winner] is documented to return. *)
Record Winner : Type := mkWinner {
  winning_advertiser_id : string;
  winning_bid_amount : float;
  winning_score : float;
  score_margin : float
}.

(** The result record of [process_opportunity]. *)
Record ResultRecord : Type := mkResultRecord {
  result_opportunity_id : string;
  result_content_category : string;
  result_winner : Winner;
  processed_at : string
}.

(** One entry of [event["Records"]]. *)
Record SQSRecord : Type := mkSQSRecord {
  messageId : string;
  body : string
}.

Record Event : Type := mkEvent {
  Records : list SQSRecord
}.

(** The Lambda context object; the test passes [None]. *)
Record LambdaContext : Type := mkLambdaContext {
  aws_request_id : string;
  function_name : string
}.

(** [{"batchItemFailures": [{"itemIdentifier": id}, ...]}]. *)
Record ItemFailure : Type := mkItemFailure {
  itemIdentifier : string
}.

Record BatchResponse : Type := mkBatchResponse {
  batchItemFailures : list ItemFailure
}.

(** ** Module globals

    [sqs] and [dynamodb] are module-level clients; what matters of them is
    the content of the queues (by URL) and of the tables (by name, items
    keyed by the hash key [opportunity_id]). *)
Record Globals : Type := mkGlobals {
  RESULTS_QUEUE_URL : string;
  DYNAMO_TABLE_NAME : string;
  sqs : gmap string (list string);
  dynamodb : gmap string (gmap string ResultRecord)
}.

(** A call that may touch the module globals. *)
Definition io (A : Type) : Type := Globals -> py A * Globals.

(** ** Scoring constants *)

Definition RELEVANCE_MAP : gmap (string * string) float :=
  list_to_map [
    (("sports", "sportswear"), 1.4%float);
    (("sports", "energy_drink"), 1.3%float);
    (("finance", "fintech"), 1.5%float);
    (("finance", "insurance"), 1.3%float);
    (("entertainment", "streaming"), 1.4%float);
    (("entertainment", "gaming"), 1.3%float);
    (("lifestyle", "beauty"), 1.3%float);
    (("lifestyle", "travel"), 1.2%float)
  ].

(** [(start_hour_inclusive, end_hour_exclusive, bonus)]. *)
Definition TIME_WINDOWS : list (Z * Z * float) :=
  [ (6, 9, 1.20%float);
    (12, 14, 1.15%float);
    (19, 23, 1.25%float) ].

Definition DEVICE_BONUS : gmap string float :=
  list_to_map [ ("mobile", 1.1%float); ("desktop", 1.0%float) ].

(** ** The four tasks, as the starter file has them *)

(** Task 1.  The body is the single statement
    [raise NotImplementedError("Task 1: Implement compute_score")]. *)
Definition compute_score (bid : Bid) (opportunity : Opportunity) : py float :=
  Raise (NotImplementedError "Task 1: Implement compute_score").

(** Task 2.  Documented to return the winner dictionary or [None]. *)
Definition select_winner (opportunity : Opportunity) : py (option Winner) :=
  Raise (NotImplementedError "Task 2: Implement select_winner").

(** Task 3.  Documented to return the result record or [None]. *)
Definition process_opportunity (opportunity : Opportunity)
  : io (option ResultRecord) :=
  fun g => (Raise (NotImplementedError "Task 3: Implement process_opportunity"), g).

(** Task 4.  The Lambda entry point. *)
Definition lambda_handler (event : Event) (context : option LambdaContext)
  : io BatchResponse :=
  fun g => (Raise (NotImplementedError "Task 4: Implement lambda_handler"), g).

(** ** The fixture of [tests/test_handler.py] *)

Definition bid_adv_001 : Bid := mkBid "adv_001" 3.50%float "sportswear".
Definition bid_adv_002 : Bid := mkBid "adv_002" 4.20%float "fast_food".
Definition bid_adv_003 : Bid := mkBid "adv_003" 2.85%float "sportswear".

Definition SAMPLE_OPPORTUNITY : Opportunity :=
  mkOpportunity "test-001" "2025-03-10T20:15:00Z" "u_12345"
    "sports" "mobile" "southeast"
    [bid_adv_001; bid_adv_002; bid_adv_003].

(** [json.dumps] of the fixture, written out key by key. *)
Definition dq : string := String (ascii_of_nat 34) EmptyString.
Definition json_str (s : string) : string := dq ++ s ++ dq.
Definition json_field (k v : string) : string := json_str k ++ ": " ++ v.

Definition json_bid (adv amount cat : string) : string :=
  "{" ++ json_field "advertiser_id" (json_str adv) ++ ", "
      ++ json_field "bid_amount" amount ++ ", "
      ++ json_field "category" (json_str cat) ++ "}".

Definition sample_body (oid : string) : string :=
  "{" ++ json_field "opportunity_id" (json_str oid) ++ ", "
      ++ json_field "timestamp" (json_str "2025-03-10T20:15:00Z") ++ ", "
      ++ json_field "user_id" (json_str "u_12345") ++ ", "
      ++ json_field "content_category" (json_str "sports") ++ ", "
      ++ json_field "device_type" (json_str "mobile") ++ ", "
      ++ json_field "region" (json_str "southeast") ++ ", "
      ++ json_field "bids"
           ("[" ++ json_bid "adv_001" "3.5" "sportswear" ++ ", "
                ++ json_bid "adv_002" "4.2" "fast_food" ++ ", "
                ++ json_bid "adv_003" "2.85" "sportswear" ++ "]")
      ++ "}".

(** The event of [test_batch_processing]: two well-formed messages. *)
Definition test_event : Event :=
  mkEvent [ mkSQSRecord "msg-001" (sample_body "test-001");
            mkSQSRecord "msg-002" (sample_body "test-002") ].

Definition results_url : string :=
  "https://sqs.us-east-1.amazonaws.com/123456789012/adflow-test-results".

(** The globals after the test's set-up: an empty results queue and an
    empty results table. *)
Definition test_globals : Globals :=
  mkGlobals results_url "adflow-test-results"
    {[ results_url := [] ]}
    {[ "adflow-test-results" := ∅ ]}.

Definition queue_length (g : Globals) : nat :=
  length (default [] (sqs g !! RESULTS_QUEUE_URL g)).

Definition table_count (g : Globals) : nat :=
  size (default ∅ (dynamodb g !! DYNAMO_TABLE_NAME g)).

(** ** The behaviour the docstrings and tests document

    Nothing in this module is executed by the worker.  It writes down the
    formula of the [compute_score] docstring and the selection rule of the
    [select_winner] docstring over the three tables above, so that the
    values the tests expect can be compared with what the starter file
    does. *)
Module Documented.

(** "Any combination not listed here receives 1.0". *)
Definition relevance_multiplier (content bid_category : string) : float :=
  default 1.0%float (RELEVANCE_MAP !! (content, bid_category)).

Fixpoint window_bonus (ws : list (Z * Z * float)) (h : Z) : float :=
  match ws with
  | [] => 1.0%float
  | (s, e, b) :: ws' =>
      if (s <=? h) && (h <? e) then b else window_bonus ws' h
  end.

Definition time_bonus (h : Z) : float := window_bonus TIME_WINDOWS h.

Definition device_bonus (device : string) : float :=
  default 1.0%float (DEVICE_BONUS !! device).

Definition digit_of (c : ascii) : option Z :=
  let n := Z.of_nat (nat_of_ascii c) in
  if (48 <=? n) && (n <=? 57) then Some (n - 48) else None.

(** Hour of an ISO-8601 UTC timestamp [YYYY-MM-DDTHH:MM:SSZ]. *)
Definition hour_of_day (ts : string) : option Z :=
  match String.get 11 ts, String.get 12 ts with
  | Some a, Some b =>
      match digit_of a, digit_of b with
      | Some d1, Some d2 =>
          let h := 10 * d1 + d2 in
          if h <? 24 then Some h else None
      | _, _ => None
      end
  | _, _ => None
  end.

Definition score_at (h : Z) (bid : Bid) (o : Opportunity) : float :=
  (bid_amount bid
   * relevance_multiplier (content_category o) (category bid)
   * time_bonus h
   * device_bonus (device_type o))%float.

(** [score = bid_amount * relevance_multiplier * time_bonus * device_bonus];
    [None] when the timestamp does not parse. *)
Definition score (bid : Bid) (o : Opportunity) : option float :=
  h ← hour_of_day (timestamp o);
  Some (score_at h bid o).

Definition valid (bid : Bid) : bool := (0 <? bid_amount bid)%float.

Definition fmax (x y : float) : float := if (x <? y)%float then y else x.

(** Running winner, its score, and the best score among the others. *)
Definition pick_step (acc : Bid * float * option float) (c : Bid * float)
  : Bid * float * option float :=
  let '(wb, ws, ru) := acc in
  if (ws <? c.2)%float then (c.1, c.2, Some ws)
  else (wb, ws, Some (from_option (fun r => fmax r c.2) c.2 ru)).

Definition pick (cs : list (Bid * float)) : option Winner :=
  match cs with
  | [] => None
  | c :: cs' =>
      let '(wb, ws, ru) := fold_left pick_step cs' (c.1, c.2, None) in
      Some (mkWinner (advertiser_id wb) (bid_amount wb) ws
              (ws - default ws ru)%float)
  end.

(** Highest score wins, the first listed among equals; the margin is the
    winning score minus the second-place score. *)
Definition select_winner (o : Opportunity) : option (option Winner) :=
  h ← hour_of_day (timestamp o);
  Some (pick (map (fun b => (b, score_at h b o)) (filter (fun b => valid b = true) (bids o)))).

(** [abs(x - y) < tol], the comparison the tests make. *)
Definition close_to (x y tol : float) : bool :=
  (abs (x - y) <? tol)%float.

End Documented.

(** Bids the specification calls invalid: amount zero or negative. *)
Definition non_positive (bid : Bid) : bool := (bid_amount bid <=? 0)%float.

(** An opportunity whose only bids are non-positive. *)
Definition non_positive_opportunity : Opportunity :=
  with_bids SAMPLE_OPPORTUNITY
    [ mkBid "adv_zero" 0%float "sportswear";
      mkBid "adv_neg" (-1.5)%float "energy_drink" ].

(** An opportunity whose two bids have the same amount and category. *)
Definition bid_first : Bid := mkBid "adv_first" 3.50%float "sportswear".
Definition bid_second : Bid := mkBid "adv_second" 3.50%float "sportswear".
Definition tie_opportunity : Opportunity :=
  with_bids SAMPLE_OPPORTUNITY [bid_first; bid_second].

(** An opportunity with a zero bid listed before a positive one. *)
Definition zero_and_positive_opportunity : Opportunity :=
  with_bids SAMPLE_OPPORTUNITY
    [ mkBid "adv_zero" 0%float "sportswear"; bid_adv_002 ].

(** [b] is a valid bid of [o] whose documented score no valid bid exceeds. *)
Definition top_scoring (o : Opportunity) (b : Bid) : Prop :=
  b ∈ bids o /\ Documented.valid b = true
  /\ exists s, Documented.score b o = Some s
       /\ forall b', b' ∈ bids o -> Documented.valid b' = true ->
            exists s', Documented.score b' o = Some s' /\ (s' <=? s)%float = true.

(** * The cleanup utility, [cleanup.py]

    The utility talks to two boto3 clients that it receives as arguments or
    builds in [main].  A client is modelled by its methods, each acting on
    the state of its service; the functions below are stated for every such
    client.  [print] appends a line to standard output.  A [ClientError] is
    represented by its text [str(e)], which is all the handlers look at; any
    other exception is an [OtherException]. *)
Module Cleanup.

Inductive exc : Type :=
  | ClientError (text : string)
  | OtherException (text : string).

Inductive outcome (A : Type) : Type :=
  | Ok (a : A)
  | Err (e : exc).
Arguments Ok {A} a.
Arguments Err {A} e.

(** Python's [needle in hay] on strings. *)
Fixpoint contains (needle hay : string) : bool :=
  String.prefix needle hay
  || match hay with
     | EmptyString => false
     | String _ rest => contains needle rest
     end.

(** The texts [get_queue_url] takes for a missing queue. *)
Definition queue_not_found (text : string) : bool :=
  contains "NonExistentQueue" text || contains "QueueDoesNotExist" text.

(** The exceptions the handler of [purge_queue] swallows. *)
Definition in_progress (e : exc) : bool :=
  match e with
  | ClientError text => contains "PurgeQueueInProgress" text
  | OtherException _ => false
  end.

(** The exceptions the handler of [get_queue_url] swallows. *)
Definition missing_queue (e : exc) : bool :=
  match e with
  | ClientError text => queue_not_found text
  | OtherException _ => false
  end.

(** The exceptions the handler of [recreate_table] swallows. *)
Definition missing_table (e : exc) : bool :=
  match e with
  | ClientError text => contains "ResourceNotFoundException" text
  | OtherException _ => false
  end.

(** [str.isspace], [str.lower] and [str.strip] on ASCII text. *)
Definition isspace (c : ascii) : bool :=
  let n := nat_of_ascii c in
  ((9 <=? n) && (n <=? 13) || (28 <=? n) && (n <=? 32))%nat.

Definition lower_char (c : ascii) : ascii :=
  let n := nat_of_ascii c in
  if ((65 <=? n) && (n <=? 90))%nat then ascii_of_nat (n + 32) else c.

Fixpoint lower (s : string) : string :=
  match s with
  | EmptyString => EmptyString
  | String c s' => String (lower_char c) (lower s')
  end.

Fixpoint lstrip (s : string) : string :=
  match s with
  | EmptyString => EmptyString
  | String c s' => if isspace c then lstrip s' else s
  end.

Fixpoint rstrip (s : string) : string :=
  match s with
  | EmptyString => EmptyString
  | String c s' =>
      match rstrip s' with
      | EmptyString => if isspace c then EmptyString else String c EmptyString
      | r => String c r
      end
  end.

Definition strip (s : string) : string := lstrip (rstrip s).

(** The keyword arguments of [create_table]. *)
Record TableSpec : Type := mkTableSpec {
  TableName : string;
  AttributeDefinitions : list (string * string);
  KeySchema : list (string * string);
  BillingMode : string
}.

(** The parsed command line. *)
Record Args : Type := mkArgs {
  student_id : string;
  region_name : string;
  skip_table : bool
}.

Section Clients.

Context {Q D : Type}.

(** The SQS client: [get_queue_url] answers with the queue URL. *)
Record SqsClient : Type := mkSqsClient {
  sqs_get_queue_url : string -> Q -> outcome string * Q;
  sqs_purge_queue : string -> Q -> outcome unit * Q
}.

(** The DynamoDB client; [ddb_wait name table delay attempts] stands for
    [get_waiter(name).wait(TableName=table, WaiterConfig=...)]. *)
Record DynamoClient : Type := mkDynamoClient {
  ddb_delete_table : string -> D -> outcome unit * D;
  ddb_create_table : TableSpec -> D -> outcome unit * D;
  ddb_wait : string -> string -> Z -> Z -> D -> outcome unit * D
}.

Record World : Type := mkWorld {
  stdout : list string;
  sqs_service : Q;
  dynamodb_service : D
}.

Definition M (A : Type) : Type := World -> outcome A * World.

Definition ret {A : Type} (a : A) : M A := fun w => (Ok a, w).

Definition raise {A : Type} (e : exc) : M A := fun w => (Err e, w).

Definition bind {A B : Type} (m : M A) (k : A -> M B) : M B :=
  fun w =>
    match m w with
    | (Ok a, w') => k a w'
    | (Err e, w') => (Err e, w')
    end.

Definition print (line : string) : M unit :=
  fun w => (Ok tt, mkWorld (stdout w ++ [line]) (sqs_service w) (dynamodb_service w)).

Definition call_sqs {A : Type} (f : Q -> outcome A * Q) : M A :=
  fun w =>
    let '(r, q) := f (sqs_service w) in
    (r, mkWorld (stdout w) q (dynamodb_service w)).

Definition call_dynamodb {A : Type} (f : D -> outcome A * D) : M A :=
  fun w =>
    let '(r, d) := f (dynamodb_service w) in
    (r, mkWorld (stdout w) (sqs_service w) d).

(** [try: body / except ClientError as e: handler(str(e))]. *)
Definition try_except_ClientError {A : Type}
    (body : M A) (handler : string -> M A) : M A :=
  fun w =>
    match body w with
    | (Err (ClientError text), w') => handler text w'
    | r => r
    end.

Notation "x <- m ;; k" := (bind m (fun x => k))
  (at level 100, m at next level, right associativity).

Definition get_queue_url (sqs : SqsClient) (queue_name : string)
  : M (option string) :=
  try_except_ClientError
    (url <- call_sqs (sqs_get_queue_url sqs queue_name);;
     ret (Some url))
    (fun text =>
       if contains "NonExistentQueue" text || contains "QueueDoesNotExist" text
       then ret None
       else raise (ClientError text)).

Definition purge_queue (sqs : SqsClient) (queue_name : string) : M unit :=
  url <- get_queue_url sqs queue_name;;
  match url with
  | None => print ("  Queue '" ++ queue_name ++ "' not found -- skipping.")
  | Some url =>
      try_except_ClientError
        (_ <- call_sqs (sqs_purge_queue sqs url);;
         print ("  Purged: " ++ queue_name))
        (fun text =>
           if contains "PurgeQueueInProgress" text
           then print ("  Purge already in progress for " ++ queue_name
                       ++ " (SQS allows one per 60s)")
           else raise (ClientError text))
  end.

Definition standard_schema (table_name : string) : TableSpec :=
  mkTableSpec table_name
    [("opportunity_id", "S")]
    [("opportunity_id", "HASH")]
    "PAY_PER_REQUEST".

(** The statements after the [try] block of [recreate_table]. *)
Definition create_and_wait (dynamodb : DynamoClient) (table_name : string)
  : M unit :=
  _ <- call_dynamodb (ddb_create_table dynamodb (standard_schema table_name));;
  _ <- print ("  Creating table: " ++ table_name ++ "...");;
  _ <- call_dynamodb (ddb_wait dynamodb "table_exists" table_name 2 30);;
  print "  Table ready.".

Definition recreate_table (dynamodb : DynamoClient) (table_name : string)
  : M unit :=
  _ <- try_except_ClientError
         (_ <- call_dynamodb (ddb_delete_table dynamodb table_name);;
          _ <- print ("  Deleting table: " ++ table_name ++ "...");;
          _ <- call_dynamodb (ddb_wait dynamodb "table_not_exists" table_name 2 30);;
          print "  Deleted.")
         (fun text =>
            if contains "ResourceNotFoundException" text
            then print ("  Table '" ++ table_name
                        ++ "' does not exist -- creating fresh.")
            else raise (ClientError text));;
  create_and_wait dynamodb table_name.

Definition sid_of (args : Args) : string := strip (lower (student_id args)).

(** [main] after [parse_args]; [boto3_sqs] and [boto3_dynamodb] stand for
    [boto3.client("sqs", region_name=...)] and
    [boto3.client("dynamodb", region_name=...)]. *)
Definition main (boto3_sqs : string -> SqsClient)
    (boto3_dynamodb : string -> DynamoClient) (args : Args) : M unit :=
  let sid := sid_of args in
  let input_q := "adflow-" ++ sid ++ "-input" in
  let results_q := "adflow-" ++ sid ++ "-results" in
  let table_name := "adflow-" ++ sid ++ "-results" in
  _ <- print ("AdFlow Cleanup for student: " ++ sid);;
  _ <- print ("  Region: " ++ region_name args);;
  _ <- print EmptyString;;
  let sqs := boto3_sqs (region_name args) in
  let dynamodb_client := boto3_dynamodb (region_name args) in
  _ <- print "Step 1: Purging input queue";;
  _ <- purge_queue sqs input_q;;
  _ <- print "Step 2: Purging results queue";;
  _ <- purge_queue sqs results_q;;
  _ <- (if negb (skip_table args)
        then _ <- print "Step 3: Recreating DynamoDB table";;
             recreate_table dynamodb_client table_name
        else ret tt);;
  _ <- print EmptyString;;
  print "Cleanup complete. Ready for a fresh test run.".

End Clients.

Arguments SqsClient : clear implicits.
Arguments DynamoClient : clear implicits.
Arguments World : clear implicits.
Arguments M : clear implicits.

(** Test doubles: clients that answer every call with a fixed outcome and
    whose state is the log of the calls received. *)
Definition logged (log : list string) (entry : string) : list string :=
  app log (cons entry nil).

Definition scripted_sqs (lookup : outcome string) (purge : outcome unit)
  : SqsClient (list string) :=
  mkSqsClient
    (fun name (log : list string) => (lookup, logged log ("get_queue_url " ++ name)))
    (fun url (log : list string) => (purge, logged log ("purge_queue " ++ url))).

Definition scripted_dynamodb (delete create : outcome unit)
  : DynamoClient (list string) :=
  mkDynamoClient
    (fun name (log : list string) => (delete, logged log ("delete_table " ++ name)))
    (fun spec (log : list string) => (create, logged log ("create_table " ++ TableName spec)))
    (fun waiter name _ _ (log : list string) => (Ok tt, logged log (waiter ++ " " ++ name))).

Definition empty_world : World (list string) (list string) :=
  mkWorld [] [] [].

(** [--student-id " GSalu " --skip-table]. *)
Definition gsalu_skip_table : Args := mkArgs " GSalu " "us-east-1" true.

Definition queue_missing : outcome string :=
  Err (ClientError
    "An error occurred (AWS.SimpleQueueService.NonExistentQueue) when calling the GetQueueUrl operation: The specified queue does not exist.").

Definition purge_in_progress : outcome unit :=
  Err (ClientError
    "An error occurred (AWS.SimpleQueueService.PurgeQueueInProgress) when calling the PurgeQueue operation: Only one PurgeQueue operation is allowed every 60 seconds.").

Definition access_denied {A : Type} : outcome A :=
  Err (ClientError
    "An error occurred (AccessDenied) when calling the operation: Access to the resource is denied.").

Definition table_missing : outcome unit :=
  Err (ClientError
    "An error occurred (ResourceNotFoundException) when calling the DeleteTable operation: Requested resource not found").

End Cleanup.

(** ** Reading the time windows

    A window [(start, end, bonus)] holds the hours from [start] inclusive to
    [end] exclusive, as the comment above the table says. *)
Definition in_window (h : Z) (w : Z * Z * float) : bool :=
  (w.1.1 <=? h) && (h <? w.1.2).

Definition window_well_formed (w : Z * Z * float) : Prop :=
  0 <= w.1.1 < w.1.2 /\ w.1.2 <= 24.

(** A factor between 1.0 and 1.5. *)
Definition factor_in_range (v : float) : bool :=
  ((1.0 <=? v) && (v <=? 1.5))%float.

(** * Properties *)

(** ** What the starter file does *)

Section Starter.

Context {A : Type}.

Lemma raise_not_return (e : exn) (a : A) : Raise e <> Return a.
Proof. discriminate. Qed.

Lemma raise_not_returns (e : exn) : ~ returns (@Raise A e).
Proof. intros [a Ha]. discriminate Ha. Qed.

End Starter.

Lemma compute_score_raises (bid : Bid) (o : Opportunity) :
  compute_score bid o
  = Raise (NotImplementedError "Task 1: Implement compute_score").
Proof. reflexivity. Qed.

Lemma select_winner_raises (o : Opportunity) :
  select_winner o
  = Raise (NotImplementedError "Task 2: Implement select_winner").
Proof. reflexivity. Qed.

Lemma process_opportunity_raises (o : Opportunity) (g : Globals) :
  process_opportunity o g
  = (Raise (NotImplementedError "Task 3: Implement process_opportunity"), g).
Proof. reflexivity. Qed.

Lemma lambda_handler_raises
    (event : Event) (context : option LambdaContext) (g : Globals) :
  lambda_handler event context g
  = (Raise (NotImplementedError "Task 4: Implement lambda_handler"), g).
Proof. reflexivity. Qed.

(** Closes goals saying that a task does not return. *)
Ltac no_return :=
  cbn [fst snd];
  first [ apply raise_not_returns
        | apply raise_not_return
        | let H := fresh in intros H; destruct H as [? H];
          repeat match type of H with _ /\ _ => destruct H as [H _] end;
          discriminate H ].

(** ** What the documented formula gives on the fixture *)

Module DocumentedFacts.
Import Documented.

Lemma relevance_multiplier_unlisted (content cat : string) :
  RELEVANCE_MAP !! (content, cat) = None ->
  relevance_multiplier content cat = 1.0%float.
Proof. unfold relevance_multiplier. now intros ->. Qed.

Lemma device_bonus_unlisted (device : string) :
  DEVICE_BONUS !! device = None -> device_bonus device = 1.0%float.
Proof. unfold device_bonus. now intros ->. Qed.

Lemma time_bonus_outside (h : Z) :
  ~ (6 <= h < 9) -> ~ (12 <= h < 14) -> ~ (19 <= h < 23) ->
  time_bonus h = 1.0%float.
Proof.
  intros H1 H2 H3. unfold time_bonus, TIME_WINDOWS. cbn [window_bonus].
  repeat match goal with
  | |- context [ (?a <=? h) && (h <? ?b) ] =>
      let E := fresh "E" in
      destruct ((a <=? h) && (h <? b)) eqn:E;
      [ apply andb_prop in E; destruct E; exfalso; lia | ]
  end.
  reflexivity.
Qed.

Lemma score_adv_001 :
  score bid_adv_001 SAMPLE_OPPORTUNITY
  = Some (3.50 * 1.4 * 1.25 * 1.1)%float.
Proof. vm_compute. reflexivity. Qed.

Lemma score_adv_002 :
  score bid_adv_002 SAMPLE_OPPORTUNITY
  = Some (4.20 * 1.0 * 1.25 * 1.1)%float.
Proof. vm_compute. reflexivity. Qed.

Lemma select_winner_no_bids (o : Opportunity) (h : Z) :
  hour_of_day (timestamp o) = Some h ->
  select_winner (with_bids o []) = Some None.
Proof. unfold select_winner. cbn. now intros ->. Qed.

Lemma pick_singleton (b : Bid) (s : float) :
  pick [(b, s)] = Some (mkWinner (advertiser_id b) (bid_amount b) s (s - s)%float).
Proof. reflexivity. Qed.

Lemma select_winner_single :
  select_winner (with_bids SAMPLE_OPPORTUNITY [bid_adv_001])
  = Some (Some (mkWinner "adv_001" 3.50%float
                  (3.50 * 1.4 * 1.25 * 1.1)%float
                  ((3.50 * 1.4 * 1.25 * 1.1) - (3.50 * 1.4 * 1.25 * 1.1))%float)).
Proof.
  unfold select_winner. cbn [with_bids timestamp bids SAMPLE_OPPORTUNITY].
  change (hour_of_day "2025-03-10T20:15:00Z") with (Some 20). cbn [mbind option_bind].
  change (filter _ [bid_adv_001]) with [bid_adv_001].
  cbn [map]. rewrite pick_singleton. vm_compute. reflexivity.
Qed.

End DocumentedFacts.


(** ** The scoring function *)

(** C1 (the code falls short of its docstring and of
    [test_matched_category_evening_mobile]).  For the 3.50 sportswear bid on
    the sample opportunity the documented product
    [bid_amount * relevance * time_bonus * device_bonus], with the factors
    1.4, 1.25 and 1.1 read from the three tables, is within 0.01 of 6.7375;
    [compute_score] raises [NotImplementedError] there and returns no score
    at all, so no score within that tolerance. *)
Theorem compute_score_sample_diverges :
  RELEVANCE_MAP !! ("sports", "sportswear") = Some 1.4%float
  /\ Documented.time_bonus 20 = 1.25%float
  /\ DEVICE_BONUS !! "mobile" = Some 1.1%float
  /\ (exists s, Documented.score bid_adv_001 SAMPLE_OPPORTUNITY = Some s
                /\ s = (3.50 * 1.4 * 1.25 * 1.1)%float
                /\ Documented.close_to s 6.7375 0.01 = true)
  /\ compute_score bid_adv_001 SAMPLE_OPPORTUNITY
     = Raise (NotImplementedError "Task 1: Implement compute_score")
  /\ ~ (exists s, compute_score bid_adv_001 SAMPLE_OPPORTUNITY = Return s
                  /\ Documented.close_to s 6.7375 0.01 = true).
Proof.
  repeat split; try (vm_compute; reflexivity).
  - exists (3.50 * 1.4 * 1.25 * 1.1)%float.
    split; [ apply DocumentedFacts.score_adv_001 | ].
    split; [ reflexivity | vm_compute; reflexivity ].
  - no_return.
Qed.

(** C8 (the code falls short of the comment above [RELEVANCE_MAP] and of
    [test_unmatched_category] and [test_no_time_bonus]).  The pair
    (sports, fast_food) is not a key of [RELEVANCE_MAP], hour 15 lies in no
    interval of [TIME_WINDOWS] and "tablet" is not a key of [DEVICE_BONUS],
    so each documented factor is 1.0 there; on each of these inputs
    [compute_score] raises [NotImplementedError] and applies no factor. *)
Theorem compute_score_unlisted_keys_diverge :
  let at_15h := with_timestamp SAMPLE_OPPORTUNITY "2025-03-10T15:00:00Z" in
  let on_tablet := with_device_type SAMPLE_OPPORTUNITY "tablet" in
  (RELEVANCE_MAP !! ("sports", "fast_food") = None
   /\ Documented.relevance_multiplier "sports" "fast_food" = 1.0%float
   /\ ~ returns (compute_score bid_adv_002 SAMPLE_OPPORTUNITY))
  /\ (Documented.hour_of_day (timestamp at_15h) = Some 15
      /\ Documented.time_bonus 15 = 1.0%float
      /\ ~ returns (compute_score bid_adv_001 at_15h))
  /\ (DEVICE_BONUS !! "tablet" = None
      /\ Documented.device_bonus "tablet" = 1.0%float
      /\ ~ returns (compute_score bid_adv_001 on_tablet)).
Proof.
  cbv zeta.
  assert (Hrel : RELEVANCE_MAP !! ("sports", "fast_food") = None)
    by (vm_compute; reflexivity).
  assert (Hdev : DEVICE_BONUS !! "tablet" = None)
    by (vm_compute; reflexivity).
  split; [ | split ].
  - split; [ exact Hrel | split; [ | no_return ] ].
    now apply DocumentedFacts.relevance_multiplier_unlisted.
  - split; [ reflexivity | split; [ | no_return ] ].
    apply DocumentedFacts.time_bonus_outside; lia.
  - split; [ exact Hdev | split; [ | no_return ] ].
    now apply DocumentedFacts.device_bonus_unlisted.
Qed.

(** ** Winner selection *)

(** C4 (the code falls short of its docstring and of
    [test_score_margin_positive]).  On the sample opportunity the documented
    margin is the winning score minus the second-place score, and positive;
    with the single bid adv_001 it is 0.  [select_winner] raises
    [NotImplementedError] on both opportunities and returns no margin. *)
Theorem select_winner_margin_diverges :
  let single := with_bids SAMPLE_OPPORTUNITY [bid_adv_001] in
  (exists w s1 s2,
      Documented.select_winner SAMPLE_OPPORTUNITY = Some (Some w)
      /\ Documented.score bid_adv_001 SAMPLE_OPPORTUNITY = Some s1
      /\ Documented.score bid_adv_002 SAMPLE_OPPORTUNITY = Some s2
      /\ winning_score w = s1
      /\ score_margin w = (s1 - s2)%float
      /\ (0 <? score_margin w)%float = true)
  /\ (exists w, Documented.select_winner single = Some (Some w)
                /\ score_margin w = 0%float)
  /\ ~ returns (select_winner SAMPLE_OPPORTUNITY)
  /\ ~ returns (select_winner single)
  /\ select_winner SAMPLE_OPPORTUNITY
     = Raise (NotImplementedError "Task 2: Implement select_winner").
Proof.
  cbv zeta. repeat split; try no_return.
  - eexists _, _, _.
    split; [ vm_compute; reflexivity | ].
    split; [ apply DocumentedFacts.score_adv_001 | ].
    split; [ apply DocumentedFacts.score_adv_002 | ].
    repeat split; vm_compute; reflexivity.
  - eexists. split; [ apply DocumentedFacts.select_winner_single | ].
    vm_compute; reflexivity.
Qed.

(** C5 (the code falls short of its docstrings and of [test_no_bids]).  For
    the sample opportunity with an empty bid list the documented result is
    [None]; [select_winner] and [process_opportunity] both raise
    [NotImplementedError] instead of returning [None]. *)
Theorem no_bids_raises :
  let empty := with_bids SAMPLE_OPPORTUNITY [] in
  Documented.select_winner empty = Some None
  /\ select_winner empty
     = Raise (NotImplementedError "Task 2: Implement select_winner")
  /\ select_winner empty <> Return None
  /\ (process_opportunity empty test_globals).1
     = Raise (NotImplementedError "Task 3: Implement process_opportunity")
  /\ (process_opportunity empty test_globals).1 <> Return None.
Proof.
  cbv zeta. split; [ | repeat split; no_return ].
  now apply (DocumentedFacts.select_winner_no_bids _ 20).
Qed.

(** C9 (the code falls short of [test_lower_bid_wins_with_relevance]).  On
    the sample opportunity the 3.50 sportswear bid (relevance 1.4) has a
    lower amount and a higher documented score than the 4.20 fast_food bid
    (relevance 1.0), and the documented winner is adv_001; [select_winner]
    raises [NotImplementedError], so on this opportunity, as on every
    other, no bid is selected. *)
Theorem select_winner_lower_bid_diverges :
  (bid_amount bid_adv_001 <? bid_amount bid_adv_002)%float = true
  /\ Documented.relevance_multiplier "sports" "sportswear" = 1.4%float
  /\ Documented.relevance_multiplier "sports" "fast_food" = 1.0%float
  /\ (exists s1 s2,
        Documented.score bid_adv_001 SAMPLE_OPPORTUNITY = Some s1
        /\ Documented.score bid_adv_002 SAMPLE_OPPORTUNITY = Some s2
        /\ (s2 <? s1)%float = true)
  /\ (exists w, Documented.select_winner SAMPLE_OPPORTUNITY = Some (Some w)
                /\ winning_advertiser_id w = "adv_001")
  /\ select_winner SAMPLE_OPPORTUNITY
     = Raise (NotImplementedError "Task 2: Implement select_winner")
  /\ (forall o : Opportunity, ~ exists w, select_winner o = Return (Some w)).
Proof.
  repeat split; try (vm_compute; reflexivity).
  - eexists _, _. repeat split; vm_compute; reflexivity.
  - eexists. split; vm_compute; reflexivity.
  - intros o. no_return.
Qed.

(** C6 (the code falls short of the [select_winner] docstring, "Returns
    None if there are no valid bids").  The opportunity whose two bids have
    amounts 0 and -1.5 has only non-positive bids, none of them valid, and
    the documented result is [None]; with a zero bid listed before the 4.20
    fast_food bid the documented winner is the positive bid adv_002.  On
    both opportunities [select_winner] raises [NotImplementedError]: it
    excludes nothing, returns no winner and does not return [None]. *)
Theorem non_positive_bids_raise :
  Forall (fun b => non_positive b = true) (bids non_positive_opportunity)
  /\ Forall (fun b => Documented.valid b = false) (bids non_positive_opportunity)
  /\ Documented.select_winner non_positive_opportunity = Some None
  /\ select_winner non_positive_opportunity
     = Raise (NotImplementedError "Task 2: Implement select_winner")
  /\ select_winner non_positive_opportunity <> Return None
  /\ (exists w, Documented.select_winner zero_and_positive_opportunity
                = Some (Some w)
                /\ winning_advertiser_id w = "adv_002"
                /\ non_positive bid_adv_002 = false)
  /\ select_winner zero_and_positive_opportunity
     = Raise (NotImplementedError "Task 2: Implement select_winner")
  /\ ~ returns (select_winner zero_and_positive_opportunity).
Proof.
  split; [ repeat constructor | ].
  split; [ repeat constructor | ].
  split; [ vm_compute; reflexivity | ].
  split; [ apply select_winner_raises | ].
  split; [ apply raise_not_return | ].
  split; [ | split; [ apply select_winner_raises | apply raise_not_returns ] ].
  eexists. repeat split; vm_compute; reflexivity.
Qed.

Lemma tie_bids_top_scoring (b : Bid) :
  b ∈ bids tie_opportunity -> top_scoring tie_opportunity b.
Proof.
  intros Hb. split; [ exact Hb | ].
  assert (Hcases : forall b', b' ∈ bids tie_opportunity ->
                     b' = bid_first \/ b' = bid_second).
  { intros b' Hb'. cbn in Hb'.
    apply elem_of_cons in Hb' as [-> | Hb']; [ now left | ].
    apply list_elem_of_singleton in Hb' as ->. now right. }
  assert (Hscore : forall b', b' ∈ bids tie_opportunity ->
            Documented.valid b' = true
            /\ Documented.score b' tie_opportunity
               = Some (3.50 * 1.4 * 1.25 * 1.1)%float).
  { intros b' Hb'. destruct (Hcases b' Hb') as [-> | ->];
      split; vm_compute; reflexivity. }
  destruct (Hscore b Hb) as [Hv Hs]. split; [ exact Hv | ].
  eexists. split; [ exact Hs | ].
  intros b' Hb' _. destruct (Hscore b' Hb') as [_ Hs'].
  eexists. split; [ exact Hs' | vm_compute; reflexivity ].
Qed.

(** C7 (the code falls short of the [select_winner] docstring and of
    [test_lower_bid_wins_with_relevance], which have it return the winner).
    In the opportunity with two 3.50 sportswear bids, both bids are valid
    and share the greatest documented score, and the earliest-listed one,
    adv_first, is the documented winner with margin 0.  [select_winner]
    raises [NotImplementedError] there: it picks neither adv_first nor any
    other bid. *)
Theorem tied_bids_raise :
  bid_first <> bid_second
  /\ bids tie_opportunity !! 0%nat = Some bid_first
  /\ bids tie_opportunity !! 1%nat = Some bid_second
  /\ top_scoring tie_opportunity bid_first
  /\ top_scoring tie_opportunity bid_second
  /\ (exists w, Documented.select_winner tie_opportunity = Some (Some w)
                /\ winning_advertiser_id w = advertiser_id bid_first
                /\ score_margin w = 0%float)
  /\ select_winner tie_opportunity
     = Raise (NotImplementedError "Task 2: Implement select_winner")
  /\ ~ (exists w, select_winner tie_opportunity = Return (Some w)
                  /\ winning_advertiser_id w = advertiser_id bid_first).
Proof.
  split; [ discriminate | ].
  split; [ reflexivity | ].
  split; [ reflexivity | ].
  split.
  { apply tie_bids_top_scoring. cbn. apply elem_of_cons. now left. }
  split.
  { apply tie_bids_top_scoring. cbn.
    apply elem_of_cons. right. now apply list_elem_of_singleton. }
  split.
  { eexists. repeat split; vm_compute; reflexivity. }
  split; [ apply select_winner_raises | ].
  intros (w & Hret & _). discriminate Hret.
Qed.

(** ** The batch handler *)

(** C2 (the code falls short of its docstring, "if a message fails, do NOT
    let it crash the entire batch").  On the two-message event of
    [test_batch_processing] the handler processes no item: it raises
    [NotImplementedError], the exception leaves the handler, and no
    response with a failure list is returned. *)
Theorem lambda_handler_exception_escapes :
  length (Records test_event) = 2%nat
  /\ (lambda_handler test_event None test_globals).1
     = Raise (NotImplementedError "Task 4: Implement lambda_handler")
  /\ ~ returns (lambda_handler test_event None test_globals).1.
Proof. repeat split. no_return. Qed.

(** C3 (the code falls short of [test_batch_processing]).  The event holds
    two well-formed opportunities, test-001 and test-002; the test expects
    an empty failure list and two records in the results queue and in the
    results table.  After the call no response with an empty failure list
    has been returned, the queue and the table are as empty as before, and
    neither opportunity id is a key of the table. *)
Theorem lambda_handler_writes_nothing :
  let '(outcome, g) := lambda_handler test_event None test_globals in
  outcome <> Return (mkBatchResponse [])
  /\ queue_length g = 0%nat
  /\ table_count g = 0%nat
  /\ (forall t, dynamodb g !! DYNAMO_TABLE_NAME g = Some t ->
        t !! "test-001" = None /\ t !! "test-002" = None).
Proof.
  cbn. split; [ discriminate | ]. split; [ reflexivity | ].
  split; [ reflexivity | ].
  intros t Ht. vm_compute in Ht. injection Ht as <-.
  split; reflexivity.
Qed.

(** C10.  For every input each of the four tasks raises
    [NotImplementedError], with the message of its task, and returns no
    value; the two tasks that can reach the AWS clients leave the module
    globals as they found them. *)
Theorem tasks_raise_not_implemented
    (bid : Bid) (o : Opportunity)
    (event : Event) (context : option LambdaContext) (g : Globals) :
  (compute_score bid o
   = Raise (NotImplementedError "Task 1: Implement compute_score")
   /\ ~ returns (compute_score bid o))
  /\ (select_winner o
      = Raise (NotImplementedError "Task 2: Implement select_winner")
      /\ ~ returns (select_winner o))
  /\ (process_opportunity o g
      = (Raise (NotImplementedError "Task 3: Implement process_opportunity"), g)
      /\ ~ returns (process_opportunity o g).1)
  /\ (lambda_handler event context g
      = (Raise (NotImplementedError "Task 4: Implement lambda_handler"), g)
      /\ ~ returns (lambda_handler event context g).1).
Proof.
  split; [ split; [ apply compute_score_raises | no_return ] | ].
  split; [ split; [ apply select_winner_raises | no_return ] | ].
  split; [ split; [ apply process_opportunity_raises | ] | split;
           [ apply lambda_handler_raises | ] ].
  - rewrite process_opportunity_raises. no_return.
  - rewrite lambda_handler_raises. no_return.
Qed.


(** * Further properties of the code *)

(** ** The scoring tables *)

(** X1.  The three time windows are well formed (hours within a day, start
    before end) and pairwise disjoint: no hour lies in more than one
    window, so the order in which the table is searched cannot matter. *)
Theorem time_windows_disjoint (h : Z) :
  Forall window_well_formed TIME_WINDOWS
  /\ (length (List.filter (in_window h) TIME_WINDOWS) <= 1)%nat.
Proof.
  split.
  - unfold TIME_WINDOWS, window_well_formed.
    repeat constructor; cbn; lia.
  - unfold TIME_WINDOWS, in_window. cbn [List.filter fst snd].
    destruct (Z.leb_spec 6 h), (Z.ltb_spec h 9),
             (Z.leb_spec 12 h), (Z.ltb_spec h 14),
             (Z.leb_spec 19 h), (Z.ltb_spec h 23);
      cbn [andb length]; lia.
Qed.

Lemma list_to_map_Forall `{Countable K} {V : Type}
    (P : K -> V -> Prop) (l : list (K * V)) :
  Forall (fun kv => P kv.1 kv.2) l ->
  map_Forall P (list_to_map l : gmap K V).
Proof.
  intros Hl k v Hkv. apply elem_of_list_to_map_2 in Hkv.
  rewrite Forall_forall in Hl. exact (Hl (k, v) Hkv).
Qed.

(** X2.  Every factor stored in [RELEVANCE_MAP], [TIME_WINDOWS] and
    [DEVICE_BONUS] is a binary64 value that is at least 1.0 and at most
    1.5; in particular none of them is zero, negative or NaN. *)
Theorem table_factors_in_range :
  map_Forall (fun _ v => factor_in_range v = true) RELEVANCE_MAP
  /\ Forall (fun w => factor_in_range w.2 = true) TIME_WINDOWS
  /\ map_Forall (fun _ v => factor_in_range v = true) DEVICE_BONUS.
Proof.
  split; [ | split ].
  - apply list_to_map_Forall. repeat constructor.
  - repeat constructor.
  - apply list_to_map_Forall. repeat constructor.
Qed.

(** ** The cleanup utility *)

Module CleanupFacts.
Import Cleanup.

(** Unfolds the plumbing of [M]. *)
Ltac run :=
  unfold bind, ret, raise, print, call_sqs, call_dynamodb,
    try_except_ClientError in *;
  cbn [fst snd stdout sqs_service dynamodb_service] in *.

(** [contains] is the substring test. *)
Lemma prefix_app (a b : string) :
  String.prefix a b = true <-> exists post, b = a ++ post.
Proof.
  revert b. induction a as [ | c a IH ]; intros b.
  - split; [ intros _; now exists b | intros _; now destruct b ].
  - destruct b as [ | c' b ]; cbn.
    + split; [ discriminate | intros [post [=]] ].
    + destruct (Ascii.ascii_dec c c') as [ <- | Hne ].
      * rewrite IH. split; intros [post Hpost]; exists post.
        -- now rewrite Hpost.
        -- now injection Hpost.
      * split; [ discriminate | intros [post [= Hc _]]; congruence ].
Qed.

Lemma contains_spec (needle hay : string) :
  contains needle hay = true
  <-> exists pre post, hay = pre ++ needle ++ post.
Proof.
  induction hay as [ | c hay IH ]; cbn [contains]; rewrite orb_true_iff.
  - rewrite prefix_app. split.
    + intros [[post Hpost] | [=]]. now exists EmptyString, post.
    + intros (pre & post & Heq). left.
      destruct pre; [ now exists post | discriminate Heq ].
  - rewrite prefix_app, IH. split.
    + intros [[post Hpost] | (pre & post & Hpost)].
      * now exists EmptyString, post.
      * exists (String c pre), post. cbn. now rewrite Hpost.
    + intros (pre & post & Heq). destruct pre as [ | c' pre ].
      * left. now exists post.
      * right. injection Heq as _ Heq. now exists pre, post.
Qed.

Section Clients.

Context {Q D : Type}.
Implicit Types (sqs : SqsClient Q) (dynamodb : DynamoClient D).
Implicit Types (w : World Q D) (e : exc).

(** X3.  [get_queue_url] returns [None] exactly when the client raised a
    [ClientError] whose text mentions NonExistentQueue or
    QueueDoesNotExist; the world is then as the failed call left it. *)
Theorem get_queue_url_none_iff sqs (queue_name : string) w w' :
  get_queue_url sqs queue_name w = (Ok None, w')
  <-> exists text q,
        sqs_get_queue_url sqs queue_name (sqs_service w)
        = (Err (ClientError text), q)
        /\ queue_not_found text = true
        /\ w' = mkWorld (stdout w) q (dynamodb_service w).
Proof.
  unfold get_queue_url, queue_not_found. run.
  destruct (sqs_get_queue_url sqs queue_name (sqs_service w))
    as [[url | [text | text]] q] eqn:Hcall.
  - split; [ discriminate | intros (? & ? & [=] & _) ].
  - destruct (contains "NonExistentQueue" text
              || contains "QueueDoesNotExist" text) eqn:Hmark.
    + split.
      * intros [= <-]. now exists text, q.
      * intros (text' & q' & [= <- <-] & _ & ->). reflexivity.
    + split; [ discriminate | ].
      intros (text' & q' & [= <- <-] & Hmark' & _). congruence.
  - split; [ discriminate | intros (? & ? & [=] & _) ].
Qed.

(** What [get_queue_url] does in each case of the client's answer. *)
Lemma get_queue_url_cases sqs (queue_name : string) w :
  match sqs_get_queue_url sqs queue_name (sqs_service w) with
  | (Ok url, q) =>
      get_queue_url sqs queue_name w
      = (Ok (Some url), mkWorld (stdout w) q (dynamodb_service w))
  | (Err e, q) =>
      get_queue_url sqs queue_name w
      = (if missing_queue e then Ok None else Err e,
         mkWorld (stdout w) q (dynamodb_service w))
  end.
Proof.
  unfold get_queue_url, missing_queue, queue_not_found. run.
  destruct (sqs_get_queue_url sqs queue_name (sqs_service w))
    as [[url | [text | text]] q]; try reflexivity.
  now destruct (contains "NonExistentQueue" text
                || contains "QueueDoesNotExist" text).
Qed.

(** X4.  For a queue the client reports missing, [purge_queue] returns
    normally, prints the single "not found -- skipping" line and never
    issues the purge: the SQS service is left as the lookup left it. *)
Theorem purge_queue_missing_queue_skips sqs (queue_name text : string) w q :
  sqs_get_queue_url sqs queue_name (sqs_service w) = (Err (ClientError text), q) ->
  queue_not_found text = true ->
  purge_queue sqs queue_name w
  = (Ok tt,
     mkWorld (stdout w ++ ["  Queue '" ++ queue_name ++ "' not found -- skipping."])
       q (dynamodb_service w)).
Proof.
  intros Hcall Hmark. unfold purge_queue.
  pose proof (get_queue_url_cases sqs queue_name w) as Hget.
  rewrite Hcall in Hget. cbn [missing_queue] in Hget. rewrite Hmark in Hget.
  unfold bind at 1. rewrite Hget. reflexivity.
Qed.

(** X5.  A purge refused because another one is in progress is not an
    error: when the client's [purge_queue] raises a [ClientError] mentioning
    PurgeQueueInProgress, [purge_queue] prints a notice and returns
    normally. *)
Theorem purge_queue_in_progress_tolerated
    sqs (queue_name url text : string) w q1 q2 :
  sqs_get_queue_url sqs queue_name (sqs_service w) = (Ok url, q1) ->
  sqs_purge_queue sqs url q1 = (Err (ClientError text), q2) ->
  contains "PurgeQueueInProgress" text = true ->
  purge_queue sqs queue_name w
  = (Ok tt,
     mkWorld (stdout w ++ ["  Purge already in progress for " ++ queue_name
                           ++ " (SQS allows one per 60s)"])
       q2 (dynamodb_service w)).
Proof.
  intros Hcall Hpurge Hmark. unfold purge_queue.
  pose proof (get_queue_url_cases sqs queue_name w) as Hget.
  rewrite Hcall in Hget.
  unfold bind at 1. rewrite Hget. run. rewrite Hpurge, Hmark. reflexivity.
Qed.

(** What [purge_queue] does in each case of the client's answers. *)
Lemma purge_queue_cases sqs (queue_name : string) w :
  match sqs_get_queue_url sqs queue_name (sqs_service w) with
  | (Ok url, q1) =>
      match sqs_purge_queue sqs url q1 with
      | (Ok _, q2) =>
          purge_queue sqs queue_name w
          = (Ok tt, mkWorld (stdout w ++ ["  Purged: " ++ queue_name])
                      q2 (dynamodb_service w))
      | (Err e, q2) =>
          purge_queue sqs queue_name w
          = if in_progress e
            then (Ok tt,
                  mkWorld (stdout w ++ ["  Purge already in progress for "
                                        ++ queue_name
                                        ++ " (SQS allows one per 60s)"])
                    q2 (dynamodb_service w))
            else (Err e, mkWorld (stdout w) q2 (dynamodb_service w))
      end
  | (Err e, q1) =>
      purge_queue sqs queue_name w
      = if missing_queue e
        then (Ok tt,
              mkWorld (stdout w ++ ["  Queue '" ++ queue_name
                                    ++ "' not found -- skipping."])
                q1 (dynamodb_service w))
        else (Err e, mkWorld (stdout w) q1 (dynamodb_service w))
  end.
Proof.
  pose proof (get_queue_url_cases sqs queue_name w) as Hget.
  destruct (sqs_get_queue_url sqs queue_name (sqs_service w))
    as [[url | e] q1].
  - destruct (sqs_purge_queue sqs url q1) as [[[] | e] q2] eqn:Hpurge;
      unfold purge_queue; unfold bind at 1; rewrite Hget; run; cbn;
      rewrite Hpurge; try reflexivity.
    destruct e as [text | text]; cbn; [ | reflexivity ].
    now destruct (contains "PurgeQueueInProgress" text).
  - unfold purge_queue; unfold bind at 1; rewrite Hget.
    now destruct (missing_queue e).
Qed.

(** The effect of [purge_queue] on the world, whatever the client does. *)
Lemma purge_queue_effect sqs (queue_name : string) w :
  exists lines : list string,
    stdout (purge_queue sqs queue_name w).2 = (stdout w ++ lines)%list
    /\ dynamodb_service (purge_queue sqs queue_name w).2 = dynamodb_service w
    /\ Forall (fun line => String.prefix "  " line = true) lines
    /\ match (purge_queue sqs queue_name w).1 with
       | Ok _ => length lines = 1%nat
       | Err _ => lines = []
       end.
Proof.
  pose proof (purge_queue_cases sqs queue_name w) as Hcases.
  destruct (sqs_get_queue_url sqs queue_name (sqs_service w))
    as [[url | e] q1].
  - destruct (sqs_purge_queue sqs url q1) as [[[] | e] q2].
    + rewrite Hcases. eexists [_]. repeat split. repeat constructor.
    + rewrite Hcases. destruct (in_progress e).
      * eexists [_]. repeat split. repeat constructor.
      * exists []. cbn. rewrite app_nil_r. repeat split. constructor.
  - rewrite Hcases. destruct (missing_queue e).
    + eexists [_]. repeat split. repeat constructor.
    + exists []. cbn. rewrite app_nil_r. repeat split. constructor.
Qed.


(** X7.  Every exception [purge_queue] raises is one the client raised,
    either looking the queue up (and then not a missing-queue error) or
    purging it (and then not a purge-in-progress error); [purge_queue]
    raises nothing of its own. *)
Theorem purge_queue_error_origin sqs (queue_name : string) w e w' :
  purge_queue sqs queue_name w = (Err e, w') ->
  (exists q, sqs_get_queue_url sqs queue_name (sqs_service w) = (Err e, q)
             /\ missing_queue e = false)
  \/ (exists url q1 q2,
        sqs_get_queue_url sqs queue_name (sqs_service w) = (Ok url, q1)
        /\ sqs_purge_queue sqs url q1 = (Err e, q2)
        /\ in_progress e = false).
Proof.
  pose proof (purge_queue_cases sqs queue_name w) as Hcases.
  destruct (sqs_get_queue_url sqs queue_name (sqs_service w))
    as [[url | e0] q1].
  - destruct (sqs_purge_queue sqs url q1) as [[[] | e1] q2] eqn:Hpurge;
      rewrite Hcases; intros Hrun; try discriminate Hrun.
    destruct (in_progress e1) eqn:Hprog; try discriminate Hrun.
    injection Hrun as <- _. right. now exists url, q1, q2.
  - rewrite Hcases. destruct (missing_queue e0) eqn:Hmiss;
      intros Hrun; try discriminate Hrun.
    injection Hrun as <- _. left. now exists q1.
Qed.

(** What the [try] block of [recreate_table] leaves behind. *)
Lemma recreate_table_cases dynamodb (table_name : string) w :
  match ddb_delete_table dynamodb table_name (dynamodb_service w) with
  | (Ok _, d1) =>
      match ddb_wait dynamodb "table_not_exists" table_name 2 30 d1 with
      | (Ok _, d2) =>
          recreate_table dynamodb table_name w
          = create_and_wait dynamodb table_name
              (mkWorld (stdout w ++ ["  Deleting table: " ++ table_name ++ "..."]
                          ++ ["  Deleted."])
                 (sqs_service w) d2)
      | (Err e, d2) =>
          recreate_table dynamodb table_name w
          = if missing_table e
            then create_and_wait dynamodb table_name
                   (mkWorld (stdout w
                             ++ ["  Deleting table: " ++ table_name ++ "..."]
                             ++ ["  Table '" ++ table_name
                                 ++ "' does not exist -- creating fresh."])
                      (sqs_service w) d2)
            else (Err e,
                  mkWorld (stdout w ++ ["  Deleting table: " ++ table_name ++ "..."])
                    (sqs_service w) d2)
      end
  | (Err e, d1) =>
      recreate_table dynamodb table_name w
      = if missing_table e
        then create_and_wait dynamodb table_name
               (mkWorld (stdout w ++ ["  Table '" ++ table_name
                                      ++ "' does not exist -- creating fresh."])
                  (sqs_service w) d1)
        else (Err e, mkWorld (stdout w) (sqs_service w) d1)
  end.
Proof.
  unfold recreate_table, missing_table.
  unfold bind at 1. run.
  destruct (ddb_delete_table dynamodb table_name (dynamodb_service w))
    as [[[] | [text | text]] d1]; cbn.
  - destruct (ddb_wait dynamodb "table_not_exists" table_name 2 30 d1)
      as [[[] | [text | text]] d2]; cbn.
    + now rewrite <- app_assoc.
    + destruct (contains "ResourceNotFoundException" text); cbn;
        [ now rewrite <- app_assoc | reflexivity ].
    + reflexivity.
  - now destruct (contains "ResourceNotFoundException" text).
  - reflexivity.
Qed.

(** X8.  A table that does not exist yet is not an error: when
    [delete_table] raises a [ClientError] mentioning
    ResourceNotFoundException, [recreate_table] prints a notice and then
    calls [create_table], with the standard schema and on the state the
    failed delete left; if that succeeds it prints "Creating table" and
    waits for [table_exists], and if that succeeds too it prints "Table
    ready." and returns.  A failure of either call is raised as it is. *)
Theorem recreate_table_missing_table_creates
    dynamodb (table_name text : string) w d1 :
  ddb_delete_table dynamodb table_name (dynamodb_service w)
  = (Err (ClientError text), d1) ->
  contains "ResourceNotFoundException" text = true ->
  match ddb_create_table dynamodb
          (mkTableSpec table_name [("opportunity_id", "S")]
             [("opportunity_id", "HASH")] "PAY_PER_REQUEST") d1 with
  | (Ok _, d2) =>
      match ddb_wait dynamodb "table_exists" table_name 2 30 d2 with
      | (Ok _, d3) =>
          recreate_table dynamodb table_name w
          = (Ok tt,
             mkWorld (stdout w
                      ++ [ "  Table '" ++ table_name
                           ++ "' does not exist -- creating fresh.";
                           "  Creating table: " ++ table_name ++ "...";
                           "  Table ready." ])
               (sqs_service w) d3)
      | (Err e, d3) =>
          recreate_table dynamodb table_name w
          = (Err e,
             mkWorld (stdout w
                      ++ [ "  Table '" ++ table_name
                           ++ "' does not exist -- creating fresh.";
                           "  Creating table: " ++ table_name ++ "..." ])
               (sqs_service w) d3)
      end
  | (Err e, d2) =>
      recreate_table dynamodb table_name w
      = (Err e,
         mkWorld (stdout w ++ [ "  Table '" ++ table_name
                                ++ "' does not exist -- creating fresh." ])
           (sqs_service w) d2)
  end.
Proof.
  intros Hdel Hmark.
  pose proof (recreate_table_cases dynamodb table_name w) as Hcases.
  rewrite Hdel in Hcases. cbn [missing_table] in Hcases.
  rewrite Hmark in Hcases. rewrite Hcases.
  unfold create_and_wait, standard_schema. run.
  destruct (ddb_create_table dynamodb _ d1) as [[[] | e] d2];
    cbn [fst snd stdout sqs_service dynamodb_service]; [ | reflexivity ].
  destruct (ddb_wait dynamodb "table_exists" table_name 2 30 d2)
    as [[[] | e] d3];
    cbn [fst snd stdout sqs_service dynamodb_service];
    now rewrite <- ?app_assoc.
Qed.

(** X9.  Any other failure of [delete_table] stops [recreate_table] at
    once: the exception is passed on, nothing is printed, and
    [create_table] is not called, the DynamoDB service being left as the
    failed delete left it. *)
Theorem recreate_table_delete_failure_stops
    dynamodb (table_name : string) e w d1 :
  ddb_delete_table dynamodb table_name (dynamodb_service w) = (Err e, d1) ->
  missing_table e = false ->
  recreate_table dynamodb table_name w
  = (Err e, mkWorld (stdout w) (sqs_service w) d1).
Proof.
  intros Hdel Hmiss.
  pose proof (recreate_table_cases dynamodb table_name w) as Hcases.
  rewrite Hdel in Hcases. now rewrite Hmiss in Hcases.
Qed.

Lemma create_and_wait_cases dynamodb (table_name : string) w :
  match ddb_create_table dynamodb (standard_schema table_name)
          (dynamodb_service w) with
  | (Ok _, d1) =>
      match ddb_wait dynamodb "table_exists" table_name 2 30 d1 with
      | (Ok _, d2) =>
          create_and_wait dynamodb table_name w
          = (Ok tt,
             mkWorld ((stdout w ++ ["  Creating table: " ++ table_name ++ "..."])
                      ++ ["  Table ready."])
               (sqs_service w) d2)
      | (Err e, d2) =>
          create_and_wait dynamodb table_name w
          = (Err e,
             mkWorld (stdout w ++ ["  Creating table: " ++ table_name ++ "..."])
               (sqs_service w) d2)
      end
  | (Err e, d1) =>
      create_and_wait dynamodb table_name w
      = (Err e, mkWorld (stdout w) (sqs_service w) d1)
  end.
Proof.
  destruct (ddb_create_table dynamodb (standard_schema table_name)
              (dynamodb_service w)) as [[[] | e] d1] eqn:Hcreate.
  - destruct (ddb_wait dynamodb "table_exists" table_name 2 30 d1)
      as [[[] | e] d2] eqn:Hwait;
      unfold create_and_wait; run; rewrite Hcreate; cbn; now rewrite Hwait.
  - unfold create_and_wait; run. now rewrite Hcreate.
Qed.

(** A successful [create_and_wait] has created the table and waited. *)
Lemma create_and_wait_ok dynamodb (table_name : string) w w' :
  create_and_wait dynamodb table_name w = (Ok tt, w') ->
  exists d1,
    ddb_create_table dynamodb (standard_schema table_name) (dynamodb_service w)
    = (Ok tt, d1)
    /\ ddb_wait dynamodb "table_exists" table_name 2 30 d1
       = (Ok tt, dynamodb_service w')
    /\ sqs_service w' = sqs_service w
    /\ stdout w'
       = ((stdout w ++ [("  Creating table: " ++ table_name ++ "...")%string])
          ++ ["  Table ready."])%list.
Proof.
  pose proof (create_and_wait_cases dynamodb table_name w) as Hcases.
  destruct (ddb_create_table dynamodb (standard_schema table_name)
              (dynamodb_service w)) as [[[] | e] d1].
  - destruct (ddb_wait dynamodb "table_exists" table_name 2 30 d1)
      as [[[] | e] d2] eqn:Hwait; rewrite Hcases; intros [= <-].
    exists d1. cbn. repeat split. exact Hwait.
  - rewrite Hcases. discriminate.
Qed.


(** The world in which [recreate_table] starts creating, if it gets there. *)
Lemma recreate_table_reaches_create dynamodb (table_name : string) w :
  (exists e w', recreate_table dynamodb table_name w = (Err e, w')
                /\ sqs_service w' = sqs_service w
                /\ exists lines : list string,
                     stdout w' = (stdout w ++ lines)%list
                     /\ Forall (fun line => String.prefix "  " line = true) lines)
  \/ (exists w1 (lines : list string),
        recreate_table dynamodb table_name w
        = create_and_wait dynamodb table_name w1
        /\ sqs_service w1 = sqs_service w
        /\ stdout w1 = (stdout w ++ lines)%list
        /\ Forall (fun line => String.prefix "  " line = true) lines).
Proof.
  pose proof (recreate_table_cases dynamodb table_name w) as Hcases.
  destruct (ddb_delete_table dynamodb table_name (dynamodb_service w))
    as [[[] | e] d1].
  - destruct (ddb_wait dynamodb "table_not_exists" table_name 2 30 d1)
      as [[[] | e] d2].
    + right. eexists _, [_; _]. split; [ exact Hcases | ].
      repeat split. repeat constructor.
    + destruct (missing_table e).
      * right. eexists _, [_; _]. split; [ exact Hcases | ].
        repeat split. repeat constructor.
      * left. eexists _, _. split; [ exact Hcases | ].
        split; [ reflexivity | ]. eexists [_]. repeat split. repeat constructor.
  - destruct (missing_table e).
    + right. eexists _, [_]. split; [ exact Hcases | ].
      repeat split. repeat constructor.
    + left. eexists _, _. split; [ exact Hcases | ].
      split; [ reflexivity | ]. exists []. cbn. rewrite app_nil_r.
      repeat split. constructor.
Qed.


(** X10.  [recreate_table] returns normally only after [create_table] has
    been called with the standard schema (hash key [opportunity_id],
    pay-per-request billing) and has succeeded, and the wait for
    [table_exists] that follows has succeeded too; the last line printed is
    then "  Table ready.". *)
Theorem recreate_table_ok_means_created
    dynamodb (table_name : string) w w' :
  recreate_table dynamodb table_name w = (Ok tt, w') ->
  exists d0 d1,
    ddb_create_table dynamodb
      (mkTableSpec table_name [("opportunity_id", "S")]
         [("opportunity_id", "HASH")] "PAY_PER_REQUEST") d0
    = (Ok tt, d1)
    /\ ddb_wait dynamodb "table_exists" table_name 2 30 d1
       = (Ok tt, dynamodb_service w')
    /\ last (stdout w') = Some "  Table ready.".
Proof.
  intros Hrun.
  destruct (recreate_table_reaches_create dynamodb table_name w)
    as [(e & w1 & Herr & _) | (w1 & lines & Heq & _)].
  - rewrite Herr in Hrun. discriminate Hrun.
  - rewrite Heq in Hrun.
    apply create_and_wait_ok in Hrun as (d1 & Hcreate & Hwait & _ & Hout).
    exists (dynamodb_service w1), d1. split; [ exact Hcreate | ].
    split; [ exact Hwait | ]. rewrite Hout. apply last_snoc.
Qed.



(** X12.  With [--skip-table], [main] never calls the DynamoDB client: the
    DynamoDB service ends as it started, whatever the SQS client does. *)
Theorem main_skip_table_leaves_dynamodb
    (boto3_sqs : string -> SqsClient Q)
    (boto3_dynamodb : string -> DynamoClient D) (args : Args) w :
  skip_table args = true ->
  dynamodb_service (main boto3_sqs boto3_dynamodb args w).2
  = dynamodb_service w.
Proof.
  intros Hskip. unfold main. cbv zeta. rewrite Hskip.
  set (input_q := "adflow-" ++ sid_of args ++ "-input").
  set (results_q := "adflow-" ++ sid_of args ++ "-results").
  set (sqs := boto3_sqs (region_name args)).
  unfold bind, print, ret.
  cbn [fst snd stdout sqs_service dynamodb_service negb].
  match goal with
  | |- context [purge_queue sqs input_q ?W] =>
      destruct (purge_queue_effect sqs input_q W) as (l1 & _ & Hd1 & _);
      destruct (purge_queue sqs input_q W) as [[[] | e1] w1]
  end; cbn [fst snd stdout sqs_service dynamodb_service] in *;
    [ | exact Hd1 ].
  match goal with
  | |- context [purge_queue sqs results_q ?W] =>
      destruct (purge_queue_effect sqs results_q W) as (l2 & _ & Hd2 & _);
      destruct (purge_queue sqs results_q W) as [[[] | e2] w2]
  end; cbn [fst snd stdout sqs_service dynamodb_service] in *;
    congruence.
Qed.


End Clients.

(** *** The student id *)

Lemma isspace_lower_char (c : ascii) : isspace (lower_char c) = isspace c.
Proof. destruct c as [[] [] [] [] [] [] [] []]; reflexivity. Qed.

Lemma lower_char_idem (c : ascii) : lower_char (lower_char c) = lower_char c.
Proof. destruct c as [[] [] [] [] [] [] [] []]; reflexivity. Qed.

Lemma lower_idem (s : string) : lower (lower s) = lower s.
Proof.
  induction s as [ | c s IH ]; cbn; [ reflexivity | ].
  now rewrite lower_char_idem, IH.
Qed.

Lemma lstrip_lower (s : string) : lstrip (lower s) = lower (lstrip s).
Proof.
  induction s as [ | c s IH ]; cbn; [ reflexivity | ].
  rewrite isspace_lower_char. now destruct (isspace c).
Qed.

Lemma rstrip_lower (s : string) : rstrip (lower s) = lower (rstrip s).
Proof.
  induction s as [ | c s IH ]; cbn; [ reflexivity | ].
  rewrite IH, isspace_lower_char.
  destruct (rstrip s); cbn; [ now destruct (isspace c) | reflexivity ].
Qed.

Lemma lstrip_idem (s : string) : lstrip (lstrip s) = lstrip s.
Proof.
  induction s as [ | c s IH ]; cbn; [ reflexivity | ].
  destruct (isspace c) eqn:Hc; [ exact IH | ]. cbn. now rewrite Hc.
Qed.

Lemma rstrip_idem (s : string) : rstrip (rstrip s) = rstrip s.
Proof.
  induction s as [ | c s IH ]; cbn; [ reflexivity | ].
  destruct (rstrip s) as [ | c' r ] eqn:Hr.
  - destruct (isspace c) eqn:Hc; cbn; [ reflexivity | now rewrite Hc ].
  - change (rstrip (String c (String c' r))) with
      (match rstrip (String c' r) with
       | EmptyString => if isspace c then EmptyString else String c EmptyString
       | r' => String c r'
       end).
    now rewrite IH.
Qed.

Lemma lstrip_rstrip (s : string) : lstrip (rstrip s) = rstrip (lstrip s).
Proof.
  induction s as [ | c s IH ]; cbn; [ reflexivity | ].
  destruct (isspace c) eqn:Hc.
  - rewrite <- IH. destruct (rstrip s); cbn; rewrite ?Hc; reflexivity.
  - cbn. destruct (rstrip s); cbn; rewrite ?Hc; reflexivity.
Qed.

Lemma strip_idem (s : string) : strip (strip s) = strip s.
Proof.
  unfold strip.
  now rewrite <- (lstrip_rstrip (rstrip s)), lstrip_idem, rstrip_idem.
Qed.

Lemma strip_lower (s : string) : strip (lower s) = lower (strip s).
Proof. unfold strip. now rewrite rstrip_lower, lstrip_lower. Qed.

Section Main.

Context {Q D : Type}.

(** X14.  The student id is normalised before use: it is put in lower case
    and stripped of surrounding white space, the normal form is stable, and
    [main] run on the normal form does exactly what it does on the id as
    typed.  So ids that differ only in case or surrounding blanks name the
    same queues and table. *)
Theorem main_normalises_student_id
    (boto3_sqs : string -> SqsClient Q)
    (boto3_dynamodb : string -> DynamoClient D) (args : Args) :
  lower (sid_of args) = sid_of args
  /\ strip (sid_of args) = sid_of args
  /\ main boto3_sqs boto3_dynamodb
       (mkArgs (sid_of args) (region_name args) (skip_table args))
     = main boto3_sqs boto3_dynamodb args.
Proof.
  assert (Hlower : lower (sid_of args) = sid_of args).
  { unfold sid_of. now rewrite <- strip_lower, lower_idem. }
  assert (Hstrip : strip (sid_of args) = sid_of args).
  { unfold sid_of. apply strip_idem. }
  split; [ exact Hlower | split; [ exact Hstrip | ] ].
  unfold main. cbv zeta.
  change (sid_of (mkArgs (sid_of args) (region_name args) (skip_table args)))
    with (strip (lower (sid_of args))).
  cbn [region_name skip_table]. now rewrite Hlower, Hstrip.
Qed.

End Main.

(** *** The theorems above on scripted clients *)

Lemma purge_queue_missing_queue_skips_witness :
  queue_not_found
    "An error occurred (AWS.SimpleQueueService.NonExistentQueue) when calling the GetQueueUrl operation: The specified queue does not exist."
  = true
  /\ purge_queue (scripted_sqs queue_missing (Ok tt)) "adflow-gsalu-input"
       empty_world
     = (Ok tt,
        mkWorld ["  Queue 'adflow-gsalu-input' not found -- skipping."]
          ["get_queue_url adflow-gsalu-input"] []).
Proof.
  split; [ reflexivity | ].
  eapply (purge_queue_missing_queue_skips
            (scripted_sqs queue_missing (Ok tt)) "adflow-gsalu-input" _
            empty_world); reflexivity.
Defined.

Lemma purge_queue_in_progress_tolerated_witness :
  purge_queue (scripted_sqs (Ok "https://queue.example/adflow-gsalu-input")
                 purge_in_progress)
    "adflow-gsalu-input" empty_world
  = (Ok tt,
     mkWorld
       ["  Purge already in progress for adflow-gsalu-input (SQS allows one per 60s)"]
       ["get_queue_url adflow-gsalu-input";
        "purge_queue https://queue.example/adflow-gsalu-input"] []).
Proof.
  eapply (purge_queue_in_progress_tolerated
            (scripted_sqs (Ok "https://queue.example/adflow-gsalu-input")
               purge_in_progress)
            "adflow-gsalu-input" _ _ empty_world); reflexivity.
Defined.

Lemma purge_queue_error_origin_witness :
  (exists q,
      sqs_get_queue_url (scripted_sqs access_denied (Ok tt))
        "adflow-gsalu-input" [] = (access_denied, q)
      /\ missing_queue
           (ClientError "An error occurred (AccessDenied) when calling the operation: Access to the resource is denied.")
         = false)
  \/ (exists url q1 q2,
        sqs_get_queue_url (scripted_sqs access_denied (Ok tt))
          "adflow-gsalu-input" [] = (Ok url, q1)
        /\ sqs_purge_queue (scripted_sqs access_denied (Ok tt)) url q1
           = (access_denied, q2)
        /\ in_progress
             (ClientError "An error occurred (AccessDenied) when calling the operation: Access to the resource is denied.")
           = false).
Proof.
  eapply (purge_queue_error_origin (scripted_sqs access_denied (Ok tt))
            "adflow-gsalu-input" empty_world). reflexivity.
Defined.

Lemma recreate_table_missing_table_creates_witness :
  recreate_table (scripted_dynamodb table_missing (Ok tt))
    "adflow-gsalu-results" empty_world
  = (Ok tt,
     mkWorld
       ["  Table 'adflow-gsalu-results' does not exist -- creating fresh.";
        "  Creating table: adflow-gsalu-results...";
        "  Table ready."]
       []
       ["delete_table adflow-gsalu-results";
        "create_table adflow-gsalu-results";
        "table_exists adflow-gsalu-results"]).
Proof.
  exact (recreate_table_missing_table_creates
           (scripted_dynamodb table_missing (Ok tt))
           "adflow-gsalu-results" _ empty_world _ eq_refl eq_refl).
Defined.

Lemma recreate_table_delete_failure_stops_witness :
  recreate_table (scripted_dynamodb access_denied (Ok tt))
    "adflow-gsalu-results" empty_world
  = (access_denied, mkWorld [] [] ["delete_table adflow-gsalu-results"]).
Proof.
  eapply (recreate_table_delete_failure_stops
            (scripted_dynamodb access_denied (Ok tt))
            "adflow-gsalu-results" _ empty_world); reflexivity.
Defined.

Lemma recreate_table_ok_means_created_witness :
  exists d0 d1,
    ddb_create_table (scripted_dynamodb (Ok tt) (Ok tt))
      (mkTableSpec "adflow-gsalu-results" [("opportunity_id", "S")]
         [("opportunity_id", "HASH")] "PAY_PER_REQUEST") d0
    = (Ok tt, d1)
    /\ ddb_wait (scripted_dynamodb (Ok tt) (Ok tt)) "table_exists"
         "adflow-gsalu-results" 2 30 d1
       = (Ok tt,
          ["delete_table adflow-gsalu-results";
           "table_not_exists adflow-gsalu-results";
           "create_table adflow-gsalu-results";
           "table_exists adflow-gsalu-results"])
    /\ last ["  Deleting table: adflow-gsalu-results...";
             "  Deleted.";
             "  Creating table: adflow-gsalu-results...";
             "  Table ready."]
       = Some "  Table ready.".
Proof.
  eapply (recreate_table_ok_means_created (scripted_dynamodb (Ok tt) (Ok tt))
            "adflow-gsalu-results" empty_world
            (mkWorld _ _ _)).
  reflexivity.
Defined.

Lemma main_skip_table_leaves_dynamodb_witness :
  skip_table gsalu_skip_table = true
  /\ dynamodb_service
       (main (fun _ => scripted_sqs (Ok "https://queue.example/q") (Ok tt))
          (fun _ => scripted_dynamodb (Ok tt) (Ok tt))
          gsalu_skip_table empty_world).2
     = [].
Proof.
  split; [ reflexivity | ].
  apply (main_skip_table_leaves_dynamodb
           (fun _ => scripted_sqs (Ok "https://queue.example/q") (Ok tt))
           (fun _ => scripted_dynamodb (Ok tt) (Ok tt))
           gsalu_skip_table empty_world).
  reflexivity.
Defined.


End CleanupFacts.
